(** * remix-auth-magic-link: the [MagicLinkStrategy.authenticate] protocol

    A shallow embedding of [src/index.ts] together with the parts of its
    dependencies that the strategy calls:

    - the Web platform: [URL.searchParams.get], [Request.formData],
      [Object.fromEntries];
    - Node: [crypto.randomBytes], [Buffer] with the ["base64url"] encoding,
      and the HMAC of WebCrypto (RFC 2104);
    - jose 6: [SignJWT] with [setProtectedHeader], [setIssuedAt],
      [setExpirationTime] and [sign], and [jwtVerify] with the options
      [clockTolerance] and [maxTokenAge].

    The digests and the textual encodings (base64url, the compact JWS
    serialisation) are kept abstract in the class [Platform], with the
    round-trip laws of [PlatformLaws]; everything the strategy and jose
    decide on top of them is written out.

    Conventions: JavaScript numbers are the integers [Z] (seconds); form
    values are strings (no [File] entries); [null] and [undefined] are
    [None]; an [async] function that throws is a function that returns an
    [Error]. *)

From Stdlib Require Import ZArith List String Ascii Lia.
From Stdlib.Strings Require Import Byte.
From stdpp Require Import base decidable countable strings gmap list.

Local Open Scope string_scope.
Local Open Scope list_scope.
Local Open Scope Z_scope.

(** ** JavaScript values used by the strategy *)

(** [if (x)] on a value of type [string | null]: [null] and the empty string
    are falsy, every other string is truthy. *)
Definition truthy (x : option string) : bool :=
  match x with
  | Some s => negb (String.eqb s "")
  | None => false
  end.

(** [x || d] on a value of type [number | undefined]: [undefined] and [0]
    are falsy.  Numbers are the integers (seconds). *)
Definition or_default (x : option Z) (d : Z) : Z :=
  match x with
  | Some n => if n =? 0 then d else n
  | None => d
  end.

(** JSON values in a JWT Claims Set: form fields are strings, the registered
    timing claims are numbers; [JOther] stands for any other JSON value
    ([true], [null], arrays, objects), which only tokens minted elsewhere can
    contain. *)
Inductive JValue : Type :=
  | JStr (s : string)
  | JNum (n : Z)
  | JOther.

(** A plain JavaScript object with string keys. *)
Abbreviation JWTPayload := (gmap string JValue).

(** [FormData]: the entries in document order; a name may repeat. *)
Abbreviation FormData := (list (string * string)).

(** [Object.fromEntries(form)]: one property per name, a later entry
    overwrites an earlier one. *)
Definition Object_fromEntries (form : FormData) : JWTPayload :=
  fold_left (fun o e => <[fst e := JStr (snd e)]> o) form ∅.

(** [url.searchParams.get(name)]: the value of the first pair with that
    name, [null] when there is none. *)
Fixpoint searchParams_get (name : string) (params : list (string * string))
  : option string :=
  match params with
  | [] => None
  | (k, v) :: rest => if String.eqb k name then Some v else searchParams_get name rest
  end.

(** The part of a [Request] the strategy reads: the query string of its URL
    and the body as [formData()] decodes it ([None]: the promise rejects,
    the body is not form-encoded). *)
Record Request : Type := {
  searchParams : list (string * string);
  formData : option FormData
}.

(** The clock and the random source of the process.  [Date_now] is
    [Math.floor(Date.now() / 1000)], the only way jose reads the clock. *)
Record World : Type := {
  Date_now : Z;
  entropy : nat -> byte
}.

(** [crypto.randomBytes(n)]: exactly [n] bytes of the random source. *)
Definition randomBytes (n : nat) (w : World) : list byte :=
  map (entropy w) (seq 0 n).

(** ** Errors *)

(** What [authenticate] can throw before it reaches the callback: the
    strategy's own [Error]s, the rejection of [formData()] (a [TypeError],
    whose message depends on the body and is not modelled), and the errors
    of jose and WebCrypto, which the strategy neither catches nor wraps.  [DataError] is WebCrypto's refusal of an empty HMAC key;
    [AlgorithmRefused] stands for what jose throws when the ["alg"] of a
    token is not one a secret can verify ([TypeError] or
    [JOSENotSupported]); the other jose errors keep the names of their
    classes, with the claim and the reason they carry. *)
Inductive Error : Type :=
  | Error_ (message : string)
  | TypeError
  | DataError
  | AlgorithmRefused
  | JWSInvalid
  | JWSSignatureVerificationFailed
  | JWTInvalid
  | JWTClaimValidationFailed (claim reason : string)
  | JWTExpired (claim reason : string).

(** ** The platform: digests and encodings *)

Inductive HashAlg : Type := SHA256 | SHA384 | SHA512.

(** The JOSE protected header, as far as jose's verification reads it. *)
Record ProtectedHeader : Type := {
  alg : string;
  typ : option string
}.

(** A compact JWS as [jwtVerify] sees it after splitting at the dots and
    decoding the three segments: the header, the payload ([None] when the
    payload segment is not a JSON object), the signature, and the signing
    input (the first two segments with their dot, as bytes). *)
Record JWS : Type := {
  protected : ProtectedHeader;
  payload : option JWTPayload;
  signature : list byte;
  data : list byte
}.

(** What the strategy needs from its platform.  The operations are kept
    abstract; [PlatformLaws] states what is assumed of them. *)
Class Platform : Type := {
  (** the SHA-2 digests of WebCrypto *)
  digest : HashAlg -> list byte -> list byte;
  (** [buffer.toString("base64url")] and [Buffer.from(s, "base64url")] *)
  base64url_encode : list byte -> string;
  base64url_decode : string -> list byte;
  (** [BASE64URL(header) || "." || BASE64URL(JSON.stringify(payload))] *)
  signing_input : ProtectedHeader -> JWTPayload -> list byte;
  (** the compact serialisation written by [CompactSign] and read back by
      [compactVerify] ([None]: not three segments, or a header that is not
      base64url-encoded JSON) *)
  compact : ProtectedHeader -> JWTPayload -> list byte -> string;
  parse_compact : string -> option JWS
}.

(** Decoding undoes encoding, a serialised JWS is read back as the parts it
    was written from, and the empty string holds no bytes and is no JWS.
    Nothing is assumed of the digests. *)
Class PlatformLaws (P : Platform) : Prop := {
  base64url_decode_encode :
    forall b, base64url_decode (base64url_encode b) = b;
  base64url_decode_empty : base64url_decode "" = [];
  parse_compact_compact : forall h p s,
    parse_compact (compact h p s)
    = Some {| protected := h; payload := Some p; signature := s;
              data := signing_input h p |};
  parse_compact_empty : parse_compact "" = None
}.

(** ** HMAC (RFC 2104), the MAC behind the JWS algorithms HS256/384/512 *)

#[global] Instance byte_eq_dec : EqDecision byte := Byte.byte_eq_dec.

Definition byte_xor (a b : byte) : byte :=
  match Byte.of_N (N.lxor (Byte.to_N a) (Byte.to_N b)) with
  | Some c => c
  | None => x00
  end.

(** The block size of the hash, in bytes. *)
Definition block_size (h : HashAlg) : nat :=
  match h with
  | SHA256 => 64
  | SHA384 | SHA512 => 128
  end.

Section Crypto.
Context {P : Platform}.

(** A key longer than a block is hashed first; the result is filled up
    with zero bytes to a whole block. *)
Definition hmac_block_key (h : HashAlg) (key : list byte) : list byte :=
  let k0 := if Nat.ltb (block_size h) (length key) then digest h key else key in
  k0 ++ repeat x00 (block_size h - length k0).

Definition hmac (h : HashAlg) (key msg : list byte) : list byte :=
  let k := hmac_block_key h key in
  digest h (map (byte_xor x5c) k ++ digest h (map (byte_xor x36) k ++ msg)).

(** ** jose *)

(** The hash of a JWS algorithm that a secret given as bytes can be used
    with; for every other ["alg"] jose refuses the key. *)
Definition hs_hash (a : string) : option HashAlg :=
  if String.eqb a "HS256" then Some SHA256
  else if String.eqb a "HS384" then Some SHA384
  else if String.eqb a "HS512" then Some SHA512
  else None.

(** Signing or verifying with the bytes [key] under the algorithm [a]:
    jose imports the bytes as a raw HMAC key, which WebCrypto refuses for
    an empty key. *)
Definition hs_mac (a : string) (key msg : list byte) : Error + list byte :=
  match hs_hash a with
  | None => inl AlgorithmRefused
  | Some h =>
      match key with
      | [] => inl DataError
      | _ :: _ => inr (hmac h key msg)
      end
  end.

(** [new SignJWT(payload)] and its setters.  The builder holds the claims
    set and the protected header. *)
Record SignJWT : Type := {
  claims : JWTPayload;
  header : option ProtectedHeader
}.

Definition SignJWT_new (payload : JWTPayload) : SignJWT :=
  {| claims := payload; header := None |}.

Definition setProtectedHeader (h : ProtectedHeader) (b : SignJWT) : SignJWT :=
  {| claims := claims b; header := Some h |}.

(** [setIssuedAt()] without an argument: ["iat"] becomes the current
    time. *)
Definition setIssuedAt (w : World) (b : SignJWT) : SignJWT :=
  {| claims := <["iat" := JNum (Date_now w)]> (claims b); header := header b |}.

(** [setExpirationTime(input)] with a [number]: jose uses a number as the
    ["exp"] claim directly.  (Only a string is resolved to a time span and
    added to the current timestamp; a [Date] is converted to its
    timestamp.)  jose refuses a number that is not finite with a
    [TypeError]; the numbers of this model are integers, so that case does
    not arise here. *)
Definition setExpirationTime (input : Z) (b : SignJWT) : SignJWT :=
  {| claims := <["exp" := JNum input]> (claims b); header := header b |}.

(** [sign(key)]: the compact serialisation of header, claims set and the
    MAC of the signing input. *)
Definition sign (key : list byte) (b : SignJWT) : Error + string :=
  match header b with
  | None => inl JWSInvalid
  | Some h =>
      if String.eqb (alg h) "" then inl JWSInvalid
      else
        match hs_mac (alg h) key (signing_input h (claims b)) with
        | inl e => inl e
        | inr s => inr (compact h (claims b) s)
        end
  end.

(** The options [jwtVerify] is called with, both in seconds:
    [clockTolerance] is the clock skew that the timing checks tolerate,
    [maxTokenAge] the longest time that may have passed since ["iat"]. *)
Record JWTVerifyOptions : Type := {
  clockTolerance : Z;
  maxTokenAge : Z
}.

(** jose's [validateClaimsSet] for these options: ["iat"] is required
    because [maxTokenAge] is given; the checks run in this order. *)
Definition validateClaimsSet (options : JWTVerifyOptions) (now : Z)
    (payload : JWTPayload) : Error + JWTPayload :=
  let tolerance := clockTolerance options in
  match payload !! "iat" with
  | None => inl (JWTClaimValidationFailed "iat" "missing")
  | Some (JNum iat) =>
      let nbf_checked : Error + unit :=
        match payload !! "nbf" with
        | None => inr tt
        | Some (JNum nbf) =>
            if now + tolerance <? nbf
            then inl (JWTClaimValidationFailed "nbf" "check_failed")
            else inr tt
        | Some _ => inl (JWTClaimValidationFailed "nbf" "invalid")
        end in
      let exp_checked : Error + unit :=
        match payload !! "exp" with
        | None => inr tt
        | Some (JNum exp) =>
            if exp <=? now - tolerance
            then inl (JWTExpired "exp" "check_failed")
            else inr tt
        | Some _ => inl (JWTClaimValidationFailed "exp" "invalid")
        end in
      match nbf_checked with
      | inl e => inl e
      | inr _ =>
          match exp_checked with
          | inl e => inl e
          | inr _ =>
              if Z.eqb (maxTokenAge options) 0 then inr payload
              else
                let age := now - iat in
                if maxTokenAge options <? age - tolerance
                then inl (JWTExpired "iat" "check_failed")
                else if age <? 0 - tolerance
                then inl (JWTClaimValidationFailed "iat" "check_failed")
                else inr payload
          end
      end
  | Some _ => inl (JWTClaimValidationFailed "iat" "invalid")
  end.

(** [jwtVerify(jwt, key, options)]: structure, algorithm, signature, then
    the claims set.  The ["alg"] of the token's own header selects the
    MAC, since no [algorithms] option is passed. *)
Definition jwtVerify (jwt : string) (key : list byte)
    (options : JWTVerifyOptions) (w : World) : Error + JWTPayload :=
  match parse_compact jwt with
  | None => inl JWSInvalid
  | Some jws =>
      if String.eqb (alg (protected jws)) "" then inl JWSInvalid
      else
        match hs_mac (alg (protected jws)) key (data jws) with
        | inl e => inl e
        | inr mac =>
            if bool_decide (mac = signature jws) then
              match payload jws with
              | None => inl JWTInvalid
              | Some p => validateClaimsSet options (Date_now w) p
              end
            else inl JWSSignatureVerificationFailed
        end
  end.
End Crypto.

(** ** The strategy ([src/index.ts]) *)

(** [MagicLinkStrategy.Options].  [expiresIn] is an integer number of
    seconds; [Infinity], [NaN] and fractions are outside the model. *)
Record Options : Type := {
  expiresIn : option Z
}.

(** The [form] handed to the callback: the [FormData] of the request when a
    token is generated, the verified claims set when one is validated. *)
Inductive Form : Type :=
  | FormData_ (entries : FormData)
  | Payload_ (p : JWTPayload).

(** [MagicLinkStrategy.VerifyOptions], the object passed to the callback:
    [GenerateOptions] has the property [key], [ValidateOptions] has not. *)
Record VerifyOptions : Type := {
  form : Form;
  token : string;
  key : option string
}.

(** How far [authenticate] gets on its own: it throws, or it ends in
    [return await this.verify(o)]. *)
Inductive Outcome : Type :=
  | Threw (e : Error)
  | Verify (o : VerifyOptions).

Section Strategy.
Context {P : Platform}.

(** [this.options.expiresIn || 5 * 60] *)
Definition expiry (options : Options) : Z :=
  or_default (expiresIn options) (5 * 60).

(** The block under [// Generate a new token]. *)
Definition generate (options : Options) (w : World) (request : Request)
  : Outcome :=
  match formData request with
  | None => Threw TypeError
  | Some entries =>
      let k := randomBytes 32 w in
      match
        sign k
          (setExpirationTime (expiry options)
             (setIssuedAt w
                (setProtectedHeader {| alg := "HS256"; typ := Some "JWT" |}
                   (SignJWT_new (Object_fromEntries entries)))))
      with
      | inl e => Threw e
      | inr t =>
          Verify {| form := FormData_ entries; token := t;
                    key := Some (base64url_encode k) |}
      end
  end.

(** The block under [// Validate the token]. *)
Definition validate (options : Options) (w : World) (jwt k : string)
  : Outcome :=
  match
    jwtVerify jwt (base64url_decode k)
      {| clockTolerance := 10; maxTokenAge := expiry options |} w
  with
  | inl e => Threw e
  | inr p => Verify {| form := Payload_ p; token := jwt; key := None |}
  end.

Definition authenticate (options : Options) (w : World) (request : Request)
  : Outcome :=
  let jwt := searchParams_get "token" (searchParams request) in
  let k := searchParams_get "key" (searchParams request) in
  if truthy jwt && negb (truthy k) then
    Threw (Error_ "Attempted to validate, but missing key in URL.")
  else if negb (truthy jwt) && truthy k then
    Threw (Error_ "Attempted to validate, but missing token in URL.")
  else if negb (truthy jwt) && negb (truthy k) then
    generate options w request
  else if truthy jwt && truthy k then
    match jwt, k with
    | Some jwt, Some k => validate options w jwt k
    | _, _ => Threw (Error_ "Unexpected state.")
    end
  else Threw (Error_ "Unexpected state.").

(** The whole method: what the callback returns or throws is what
    [authenticate] returns or throws. *)
Definition authenticate_with {User : Type}
    (verify : VerifyOptions -> Error + User)
    (options : Options) (w : World) (request : Request) : Error + User :=
  match authenticate options w request with
  | Threw e => inl e
  | Verify o => verify o
  end.

(** *** Names for what one issuance produces *)

(** The claims set that [generate] signs for the form [entries]. *)
Definition issued_claims (options : Options) (w : World) (entries : FormData)
  : JWTPayload :=
  <["exp" := JNum (expiry options)]>
    (<["iat" := JNum (Date_now w)]> (Object_fromEntries entries)).

Definition issued_header : ProtectedHeader :=
  {| alg := "HS256"; typ := Some "JWT" |}.

Definition issued_token (options : Options) (w : World) (entries : FormData)
  : string :=
  compact issued_header (issued_claims options w entries)
    (hmac SHA256 (randomBytes 32 w)
       (signing_input issued_header (issued_claims options w entries))).

Definition issued_key (w : World) : string :=
  base64url_encode (randomBytes 32 w).

(** A request to the login route: no query, the form as body. *)
Definition login_request (entries : FormData) : Request :=
  {| searchParams := []; formData := Some entries |}.

(** A request to the callback route: the link's [token] with the [key]
    appended by the caller; no body. *)
Definition callback_request (jwt k : string) : Request :=
  {| searchParams := [("token", jwt); ("key", k)]; formData := None |}.
End Strategy.

(** ** A platform to run the strategy on

    The properties below hold for every [Platform].  To evaluate the
    strategy on concrete requests this instance is used: the digest is the
    identity, a byte string is written as the string of its bytes, and a
    JWS is written as the binary numeral of its code. *)

Fixpoint pos_to_string (p : positive) : string :=
  match p with
  | xH => "."
  | xO q => String "0" (pos_to_string q)
  | xI q => String "1" (pos_to_string q)
  end.

Fixpoint string_to_pos (s : string) : option positive :=
  match s with
  | EmptyString => None
  | String c r =>
      if Ascii.eqb c "." then
        match r with EmptyString => Some xH | String _ _ => None end
      else if Ascii.eqb c "0" then xO <$> string_to_pos r
      else if Ascii.eqb c "1" then xI <$> string_to_pos r
      else None
  end.

#[global] Instance JValue_eq_dec : EqDecision JValue.
Proof. solve_decision. Defined.

#[global] Instance ProtectedHeader_eq_dec : EqDecision ProtectedHeader.
Proof. solve_decision. Defined.

#[global] Instance byte_countable : Countable byte :=
  inj_countable Byte.to_N Byte.of_N Byte.of_to_N.

#[global] Instance JValue_countable : Countable JValue :=
  inj_countable'
    (fun v => match v with
              | JStr s => inl s
              | JNum n => inr (inl n)
              | JOther => inr (inr tt)
              end)
    (fun c => match c with
              | inl s => JStr s
              | inr (inl n) => JNum n
              | inr (inr _) => JOther
              end)
    (fun v => match v with JStr _ | JNum _ | JOther => eq_refl end).

#[global] Instance ProtectedHeader_countable : Countable ProtectedHeader :=
  inj_countable'
    (fun h => (alg h, typ h))
    (fun c => {| alg := fst c; typ := snd c |})
    (fun h => match h with Build_ProtectedHeader _ _ => eq_refl end).

Definition example_compact (h : ProtectedHeader) (p : JWTPayload)
    (s : list byte) : string :=
  pos_to_string (encode (h, p, s)).

Definition example_signing_input (h : ProtectedHeader) (p : JWTPayload)
  : list byte :=
  list_byte_of_string (pos_to_string (encode (h, p))).

Definition example_parse_compact (t : string) : option JWS :=
  match string_to_pos t ≫= decode with
  | Some (h, p, s) =>
      Some {| protected := h; payload := Some p; signature := s;
              data := example_signing_input h p |}
  | None => None
  end.

Definition example_platform : Platform := {|
  digest := fun _ b => b;
  base64url_encode := string_of_list_byte;
  base64url_decode := list_byte_of_string;
  signing_input := example_signing_input;
  compact := example_compact;
  parse_compact := example_parse_compact
|}.

(** A process whose clock shows [now] and whose random source yields the
    bytes 0, 1, 2, ... *)
Definition example_world (now : Z) : World :=
  {| Date_now := now;
     entropy := fun i => default x00 (Byte.of_nat i) |}.

(** ** Concrete requests *)

Definition default_options : Options := {| expiresIn := None |}.

(** A configuration whose [expiresIn], read as a point in time, lies in
    2033. *)
Definition far_options : Options := {| expiresIn := Some 2000000000 |}.

Definition email_form : FormData := [("email", "a@b.com")].

(** The clock of the examples: 2023-11-14T22:13:20Z. *)
Definition example_now : Z := 1700000000.

(** [?token=] with a form body: the parameter [token] is in the URL, with
    the empty string as its value, and [key] is not. *)
Definition empty_token_request : Request :=
  {| searchParams := [("token", "")]; formData := Some email_form |}.

(** A parameter as the dispatch reads it: an empty value counts for
    nothing. *)
Definition absent_if_empty (x : option string) : option string :=
  if truthy x then x else None.

(** The token, the key and the claims set of the issuance under
    [far_options] at [example_now] on the example platform. *)
Definition example_token : string :=
  issued_token (P := example_platform) far_options (example_world example_now)
    email_form.

Definition example_key : string :=
  issued_key (P := example_platform) (example_world example_now).

Definition example_claims : JWTPayload :=
  issued_claims far_options (example_world example_now) email_form.

(** The same issuance under [default_options]. *)
Definition default_token : string :=
  issued_token (P := example_platform) default_options
    (example_world example_now) email_form.

(** The example key followed by a zero byte, as the caller would append
    it to the callback URL. *)
Definition zero_extended_key : string :=
  base64url_encode (Platform := example_platform)
    (randomBytes 32 (example_world example_now) ++ [x00]).

(** What the callback receives for the example issuance. *)
Definition example_validation : VerifyOptions :=
  {| form := Payload_ example_claims; token := example_token; key := None |}.

(** A form with a field named [nbf]. *)
Definition nbf_form : FormData := [("email", "a@b.com"); ("nbf", "tomorrow")].

(** A form with two entries named [email]. *)
Definition two_emails_form : FormData :=
  [("email", "a@b.com"); ("email", "c@d.com")].

(** * Properties *)

(** ** JavaScript values and the Web platform *)

Lemma truthy_Some (s : string) : truthy (Some s) = bool_decide (s <> "").
Proof.
  unfold truthy. destruct (String.eqb_spec s "") as [->|Hne].
  - symmetry. apply bool_decide_eq_false_2. intros H. by apply H.
  - symmetry. by apply bool_decide_eq_true_2.
Qed.

Lemma truthy_true (x : option string) :
  truthy x = true <-> exists s, x = Some s /\ s <> "".
Proof.
  destruct x as [s|]; simpl.
  - rewrite negb_true_iff, String.eqb_neq. split.
    + intros H. by exists s.
    + intros (s' & [= <-] & H). done.
  - split; [done|]. by intros (s & ? & _).
Qed.

Lemma truthy_nonempty (s : string) : s <> "" -> truthy (Some s) = true.
Proof. intros Hs. apply truthy_true. by exists s. Qed.

Lemma or_default_nonzero (x : option Z) (d : Z) : d <> 0 -> or_default x d <> 0.
Proof.
  intros Hd. destruct x as [n|]; simpl; [|done].
  destruct (Z.eqb_spec n 0); done.
Qed.

Lemma Object_fromEntries_fold (entries : FormData) (o : JWTPayload) (name : string) :
  fold_left (fun o e => <[fst e := JStr (snd e)]> o) entries o !! name
  = match searchParams_get name (rev entries) with
    | Some v => Some (JStr v)
    | None => o !! name
    end.
Proof.
  revert o. induction entries as [|[k v] entries IH]; intros o; simpl; [done|].
  rewrite IH. clear IH.
  assert (Hget : forall l, searchParams_get name (l ++ [(k, v)])
                 = match searchParams_get name l with
                   | Some x => Some x
                   | None => if String.eqb k name then Some v else None
                   end).
  { induction l as [|[k' v'] l IHl]; simpl; [done|].
    destruct (String.eqb k' name); [done|apply IHl]. }
  rewrite Hget. destruct (searchParams_get name (rev entries)); [done|].
  destruct (String.eqb_spec k name) as [->|Hne].
  - by rewrite lookup_insert_eq.
  - by rewrite lookup_insert_ne.
Qed.

(** A property of [Object.fromEntries(form)] holds the last value the form
    has for that name, as a string. *)
Lemma Object_fromEntries_lookup (entries : FormData) (name : string) :
  Object_fromEntries entries !! name
  = JStr <$> searchParams_get name (rev entries).
Proof.
  unfold Object_fromEntries. rewrite Object_fromEntries_fold.
  by destruct (searchParams_get name (rev entries)).
Qed.

(** ** Reading a list of pairs by name *)

Lemma searchParams_get_None (name : string) (l : list (string * string)) :
  searchParams_get name l = None <-> ~ In name (map fst l).
Proof.
  induction l as [|[k v] l IH]; simpl; [tauto|].
  destruct (String.eqb_spec k name) as [->|Hne].
  - split; [discriminate|]. intros H. exfalso. apply H. by left.
  - rewrite IH. split.
    + intros H [?|?]; [done|by apply H].
    + intros H ?. apply H. by right.
Qed.

Lemma searchParams_get_app (name : string) (l1 l2 : list (string * string)) :
  ~ In name (map fst l1) ->
  searchParams_get name (l1 ++ l2) = searchParams_get name l2.
Proof.
  induction l1 as [|[k v] l1 IH]; simpl; [done|]. intros H.
  destruct (String.eqb_spec k name) as [->|Hne].
  - exfalso. apply H. by left.
  - apply IH. intros ?. apply H. by right.
Qed.

(** The property [name] of [Object.fromEntries(form)] is the value of the
    last entry with that name. *)
Lemma Object_fromEntries_last (before after : FormData) (name v : string) :
  ~ In name (map fst after) ->
  Object_fromEntries (before ++ (name, v) :: after) !! name = Some (JStr v).
Proof.
  intros Hafter. rewrite Object_fromEntries_lookup.
  rewrite rev_app_distr. simpl. rewrite <- app_assoc. simpl.
  rewrite searchParams_get_app.
  - simpl. by rewrite String.eqb_refl.
  - rewrite map_rev, <- in_rev. exact Hafter.
Qed.

Lemma Object_fromEntries_absent (entries : FormData) (name : string) :
  ~ In name (map fst entries) -> Object_fromEntries entries !! name = None.
Proof.
  intros H. rewrite Object_fromEntries_lookup.
  assert (Hrev : searchParams_get name (rev entries) = None).
  { apply searchParams_get_None. by rewrite map_rev, <- in_rev. }
  by rewrite Hrev.
Qed.

Lemma Object_fromEntries_present (entries : FormData) (name v : string) :
  In (name, v) entries -> Object_fromEntries entries !! name <> None.
Proof.
  intros Hin. rewrite Object_fromEntries_lookup.
  destruct (searchParams_get name (rev entries)) eqn:E; [done|].
  apply searchParams_get_None in E. exfalso. apply E.
  rewrite map_rev, <- in_rev. by apply (in_map fst) in Hin.
Qed.

Lemma randomBytes_length (n : nat) (w : World) : length (randomBytes n w) = n.
Proof. unfold randomBytes. by rewrite length_map, length_seq. Qed.

Lemma randomBytes_nonempty (n : nat) (w : World) : randomBytes (S n) w <> [].
Proof. unfold randomBytes. simpl. discriminate. Qed.

(** ** HMAC and jose *)

Section CryptoFacts.
Context {P : Platform} {L : PlatformLaws P}.

(** RFC 2104 fills a short key with zero bytes, so a key and the same key
    followed by a zero byte are one HMAC key. *)
Lemma hmac_block_key_zero (h : HashAlg) (k : list byte) :
  (length k < block_size h)%nat ->
  hmac_block_key h (k ++ [x00]) = hmac_block_key h k.
Proof.
  intros Hlen. unfold hmac_block_key.
  rewrite length_app. simpl length.
  destruct (Nat.ltb_spec (block_size h) (length k + 1)) as [?|_]; [lia|].
  destruct (Nat.ltb_spec (block_size h) (length k)) as [?|_]; [lia|].
  rewrite length_app. simpl length. rewrite <- app_assoc. f_equal.
  replace (block_size h - length k)%nat
    with (S (block_size h - (length k + 1)))%nat by lia.
  reflexivity.
Qed.

Lemma hmac_zero (h : HashAlg) (k msg : list byte) :
  (length k < block_size h)%nat ->
  hmac h (k ++ [x00]) msg = hmac h k msg.
Proof. intros Hlen. unfold hmac. by rewrite hmac_block_key_zero. Qed.

Lemma hs_mac_HS256 (k msg : list byte) :
  k <> [] -> hs_mac "HS256" k msg = inr (hmac SHA256 k msg).
Proof. intros Hk. unfold hs_mac. simpl. by destruct k. Qed.

Lemma base64url_encode_nonempty (b : list byte) :
  b <> [] -> base64url_encode b <> "".
Proof.
  intros Hb He. apply Hb.
  rewrite <- (base64url_decode_encode b), He. apply base64url_decode_empty.
Qed.

Lemma base64url_encode_inj (a b : list byte) :
  base64url_encode a = base64url_encode b -> a = b.
Proof.
  intros H. rewrite <- (base64url_decode_encode a), H.
  apply base64url_decode_encode.
Qed.

Lemma compact_nonempty h p s : compact h p s <> "".
Proof.
  intros He. pose proof (parse_compact_compact h p s) as Hp.
  rewrite He, parse_compact_empty in Hp. discriminate.
Qed.

(** [jwtVerify] on a token that [sign] wrote with HS256: the signature
    check compares the two MACs, then the claims are validated. *)
Lemma jwtVerify_compact (h : ProtectedHeader) (p : JWTPayload)
    (k k' : list byte) (options : JWTVerifyOptions) (w : World) :
  alg h = "HS256" -> k' <> [] ->
  jwtVerify (compact h p (hmac SHA256 k (signing_input h p))) k' options w
  = if bool_decide (hmac SHA256 k' (signing_input h p)
                    = hmac SHA256 k (signing_input h p))
    then validateClaimsSet options (Date_now w) p
    else inl JWSSignatureVerificationFailed.
Proof.
  intros Halg Hk. unfold jwtVerify.
  rewrite parse_compact_compact. simpl. rewrite Halg. simpl.
  rewrite hs_mac_HS256 by done. reflexivity.
Qed.
End CryptoFacts.

(** ** The strategy *)

Section StrategyFacts.
Context {P : Platform} {L : PlatformLaws P}.

Lemma expiry_nonzero (options : Options) : expiry options <> 0.
Proof. unfold expiry. by apply or_default_nonzero. Qed.

(** The three ways through the dispatch. *)
Lemma authenticate_generate (options : Options) (w : World) (request : Request) :
  truthy (searchParams_get "token" (searchParams request)) = false ->
  truthy (searchParams_get "key" (searchParams request)) = false ->
  authenticate options w request = generate options w request.
Proof. intros Ht Hk. unfold authenticate. by rewrite Ht, Hk. Qed.

Lemma authenticate_validate (options : Options) (w : World) (request : Request)
    (jwt k : string) :
  searchParams_get "token" (searchParams request) = Some jwt -> jwt <> "" ->
  searchParams_get "key" (searchParams request) = Some k -> k <> "" ->
  authenticate options w request = validate options w jwt k.
Proof.
  intros Ht Hjwt Hk Hkey. unfold authenticate. rewrite Ht, Hk.
  rewrite !truthy_Some, !bool_decide_eq_true_2 by done. reflexivity.
Qed.

Lemma authenticate_missing_key (options : Options) (w : World) (request : Request) :
  truthy (searchParams_get "token" (searchParams request)) = true ->
  truthy (searchParams_get "key" (searchParams request)) = false ->
  authenticate options w request
  = Threw (Error_ "Attempted to validate, but missing key in URL.").
Proof. intros Ht Hk. unfold authenticate. by rewrite Ht, Hk. Qed.

Lemma authenticate_missing_token (options : Options) (w : World) (request : Request) :
  truthy (searchParams_get "token" (searchParams request)) = false ->
  truthy (searchParams_get "key" (searchParams request)) = true ->
  authenticate options w request
  = Threw (Error_ "Attempted to validate, but missing token in URL.").
Proof. intros Ht Hk. unfold authenticate. by rewrite Ht, Hk. Qed.

Lemma authenticate_both (options : Options) (w : World) (request : Request) :
  truthy (searchParams_get "token" (searchParams request)) = true ->
  truthy (searchParams_get "key" (searchParams request)) = true ->
  exists jwt k,
    searchParams_get "token" (searchParams request) = Some jwt
    /\ searchParams_get "key" (searchParams request) = Some k
    /\ authenticate options w request = validate options w jwt k.
Proof.
  intros Ht Hk.
  destruct (proj1 (truthy_true _) Ht) as (jwt & Ejwt & Hjwt).
  destruct (proj1 (truthy_true _) Hk) as (k & Ek & Hkey).
  exists jwt, k. repeat split; [done..|]. by apply authenticate_validate.
Qed.

Lemma authenticate_callback (options : Options) (w : World) (jwt k : string) :
  jwt <> "" -> k <> "" ->
  authenticate options w (callback_request jwt k) = validate options w jwt k.
Proof. intros. by apply authenticate_validate. Qed.

(** What the issuer hands to the callback. *)
Lemma generate_issued (options : Options) (w : World) (request : Request)
    (entries : FormData) :
  formData request = Some entries ->
  generate options w request
  = Verify {| form := FormData_ entries;
              token := issued_token options w entries;
              key := Some (issued_key w) |}.
Proof.
  intros Hf. unfold generate. rewrite Hf.
  unfold sign, setExpirationTime, setIssuedAt, setProtectedHeader, SignJWT_new.
  cbn [header claims alg]. change (String.eqb "HS256" "") with false.
  cbv iota. rewrite hs_mac_HS256 by apply randomBytes_nonempty. reflexivity.
Qed.

Lemma authenticate_login (options : Options) (w : World) (entries : FormData) :
  authenticate options w (login_request entries)
  = Verify {| form := FormData_ entries;
              token := issued_token options w entries;
              key := Some (issued_key w) |}.
Proof. rewrite authenticate_generate by done. by apply generate_issued. Qed.

(** The callback's result is the result of the method, and the callback is
    not called when [authenticate] throws before. *)
Lemma authenticate_with_outcome {User : Type}
    (verify : VerifyOptions -> Error + User) (options : Options) (w : World)
    (request : Request) :
  (forall e, authenticate options w request = Threw e ->
             authenticate_with verify options w request = inl e)
  /\ (forall o, authenticate options w request = Verify o ->
                authenticate_with verify options w request = verify o).
Proof. unfold authenticate_with. by split; intros ? ->. Qed.

(** The issuer on any request it is chosen for. *)
Lemma authenticate_issuer (options : Options) (w : World) (request : Request)
    (entries : FormData) :
  truthy (searchParams_get "token" (searchParams request)) = false ->
  truthy (searchParams_get "key" (searchParams request)) = false ->
  formData request = Some entries ->
  authenticate options w request
  = Verify {| form := FormData_ entries;
              token := issued_token options w entries;
              key := Some (issued_key w) |}.
Proof.
  intros Ht Hk Hf. rewrite authenticate_generate by done.
  by apply generate_issued.
Qed.

Lemma issued_token_nonempty options w entries :
  issued_token options w entries <> "".
Proof. apply compact_nonempty. Qed.

Lemma issued_key_nonempty w : issued_key w <> "".
Proof. apply base64url_encode_nonempty, randomBytes_nonempty. Qed.

(** The claims of an issued token. *)
Lemma issued_claims_iat options w entries :
  issued_claims options w entries !! "iat" = Some (JNum (Date_now w)).
Proof.
  unfold issued_claims. rewrite lookup_insert_ne by done.
  apply lookup_insert_eq.
Qed.

Lemma issued_claims_exp options w entries :
  issued_claims options w entries !! "exp" = Some (JNum (expiry options)).
Proof. unfold issued_claims. apply lookup_insert_eq. Qed.

Lemma issued_claims_other options w entries (name : string) :
  name <> "iat" -> name <> "exp" ->
  issued_claims options w entries !! name = Object_fromEntries entries !! name.
Proof.
  intros Hi He. unfold issued_claims. by rewrite !lookup_insert_ne.
Qed.

(** Validating an issued token with the bytes [kb] as key at a later
    clock [w']: the MACs are compared, then the claims are checked. *)
Lemma validate_issued (options options' : Options) (w w' : World)
    (entries : FormData) (k : string) :
  base64url_decode k <> [] ->
  validate options' w' (issued_token options w entries) k
  = if bool_decide
         (hmac SHA256 (base64url_decode k)
            (signing_input issued_header (issued_claims options w entries))
          = hmac SHA256 (randomBytes 32 w)
              (signing_input issued_header (issued_claims options w entries)))
    then
      match
        validateClaimsSet
          {| clockTolerance := 10; maxTokenAge := expiry options' |}
          (Date_now w') (issued_claims options w entries)
      with
      | inl e => Threw e
      | inr p =>
          Verify {| form := Payload_ p;
                    token := issued_token options w entries; key := None |}
      end
    else Threw JWSSignatureVerificationFailed.
Proof.
  intros Hk. unfold validate, issued_token.
  rewrite jwtVerify_compact by done.
  by destruct (bool_decide _).
Qed.

(** The claims check of an issued token, spelled out: a form field
    [nbf] is a string and is refused; ["exp"] holds [expiry options] as a
    point in time; the age is measured from ["iat"]. *)
Lemma validateClaimsSet_issued (options : Options) (age_max : Z) (w : World)
    (now : Z) (entries : FormData) :
  age_max <> 0 ->
  validateClaimsSet {| clockTolerance := 10; maxTokenAge := age_max |} now
    (issued_claims options w entries)
  = match Object_fromEntries entries !! "nbf" with
    | Some _ => inl (JWTClaimValidationFailed "nbf" "invalid")
    | None =>
        if expiry options <=? now - 10 then inl (JWTExpired "exp" "check_failed")
        else if age_max <? now - Date_now w - 10
        then inl (JWTExpired "iat" "check_failed")
        else if now - Date_now w <? 0 - 10
        then inl (JWTClaimValidationFailed "iat" "check_failed")
        else inr (issued_claims options w entries)
    end.
Proof.
  intros Hmax. unfold validateClaimsSet. simpl.
  rewrite issued_claims_iat, issued_claims_exp.
  rewrite issued_claims_other by done.
  rewrite Object_fromEntries_lookup.
  destruct (searchParams_get "nbf" (rev entries)); simpl; [done|].
  destruct (expiry options <=? now - 10); [done|].
  destruct (Z.eqb_spec age_max 0); done.
Qed.
End StrategyFacts.

(** ** Issuing a token and bringing it back *)

Section RoundTrip.
Context {P : Platform} {L : PlatformLaws P}.

(** The callback request that carries an issued token and its key reaches
    the claims check: the key decodes to the bytes that signed the token. *)
Lemma callback_issued (options options' : Options) (w w' : World)
    (entries : FormData) :
  authenticate options' w'
    (callback_request (issued_token options w entries) (issued_key w))
  = match
      validateClaimsSet
        {| clockTolerance := 10; maxTokenAge := expiry options' |}
        (Date_now w') (issued_claims options w entries)
    with
    | inl e => Threw e
    | inr p =>
        Verify {| form := Payload_ p;
                  token := issued_token options w entries; key := None |}
    end.
Proof.
  rewrite authenticate_callback
    by (apply issued_token_nonempty || apply issued_key_nonempty).
  unfold issued_key at 1.
  rewrite validate_issued;
    rewrite base64url_decode_encode; [|apply randomBytes_nonempty].
  by rewrite bool_decide_eq_true_2.
Qed.

(** The same, with the claims check written out. *)
Lemma callback_issued_checks (options options' : Options) (w w' : World)
    (entries : FormData) :
  authenticate options' w'
    (callback_request (issued_token options w entries) (issued_key w))
  = match Object_fromEntries entries !! "nbf" with
    | Some _ => Threw (JWTClaimValidationFailed "nbf" "invalid")
    | None =>
        if expiry options <=? Date_now w' - 10
        then Threw (JWTExpired "exp" "check_failed")
        else if expiry options' <? Date_now w' - Date_now w - 10
        then Threw (JWTExpired "iat" "check_failed")
        else if Date_now w' - Date_now w <? 0 - 10
        then Threw (JWTClaimValidationFailed "iat" "check_failed")
        else
          Verify {| form := Payload_ (issued_claims options w entries);
                    token := issued_token options w entries; key := None |}
    end.
Proof.
  rewrite callback_issued, validateClaimsSet_issued by apply expiry_nonzero.
  destruct (Object_fromEntries entries !! "nbf"); [done|].
  repeat match goal with |- context [if ?b then _ else _] => destruct b end;
    reflexivity.
Qed.

(** An issued token comes back when its ["exp"] (the number
    [expiry options], read as a point in time) is still ahead of the clock
    and the token is no older than the maximum age. *)
Lemma callback_issued_ok (options options' : Options) (w w' : World)
    (entries : FormData) :
  Object_fromEntries entries !! "nbf" = None ->
  Date_now w' - 10 < expiry options ->
  Date_now w' - Date_now w - 10 <= expiry options' ->
  0 - 10 <= Date_now w' - Date_now w ->
  authenticate options' w'
    (callback_request (issued_token options w entries) (issued_key w))
  = Verify {| form := Payload_ (issued_claims options w entries);
              token := issued_token options w entries; key := None |}.
Proof.
  intros Hnbf Hexp Hage Hiat. rewrite callback_issued_checks, Hnbf.
  destruct (Z.leb_spec (expiry options) (Date_now w' - 10)); [lia|].
  destruct (Z.ltb_spec (expiry options') (Date_now w' - Date_now w - 10)); [lia|].
  destruct (Z.ltb_spec (Date_now w' - Date_now w) (0 - 10)); [lia|].
  reflexivity.
Qed.

(** It is refused, whatever the form, once the clock is ten seconds past
    the number stored in ["exp"]. *)
Lemma callback_issued_expired (options options' : Options) (w w' : World)
    (entries : FormData) :
  expiry options <= Date_now w' - 10 ->
  authenticate options' w'
    (callback_request (issued_token options w entries) (issued_key w))
  = Threw (match Object_fromEntries entries !! "nbf" with
           | Some _ => JWTClaimValidationFailed "nbf" "invalid"
           | None => JWTExpired "exp" "check_failed"
           end).
Proof.
  intros Hexp. rewrite callback_issued_checks.
  destruct (Object_fromEntries entries !! "nbf"); [done|].
  by destruct (Z.leb_spec (expiry options) (Date_now w' - 10)); [|lia].
Qed.

(** A key that HMAC cannot tell from the issued one (the same bytes and
    a zero byte) verifies the token exactly as the issued key does. *)
Lemma callback_zero_extended_key (options options' : Options) (w w' : World)
    (entries : FormData) :
  authenticate options' w'
    (callback_request (issued_token options w entries)
       (base64url_encode (randomBytes 32 w ++ [x00])))
  = authenticate options' w'
      (callback_request (issued_token options w entries) (issued_key w)).
Proof.
  rewrite callback_issued.
  rewrite authenticate_callback.
  - rewrite validate_issued; rewrite base64url_decode_encode.
    + rewrite hmac_zero by (rewrite randomBytes_length; simpl; lia).
      by rewrite bool_decide_eq_true_2.
    + by destruct (randomBytes 32 w).
  - apply issued_token_nonempty.
  - apply base64url_encode_nonempty. by destruct (randomBytes 32 w).
Qed.
End RoundTrip.

Arguments issued_token : simpl never.
Arguments issued_claims : simpl never.
Arguments issued_key : simpl never.

(** ** The example platform keeps the laws *)

Lemma string_to_pos_to_string (p : positive) :
  string_to_pos (pos_to_string p) = Some p.
Proof. induction p as [q IH|q IH|]; simpl; by rewrite ?IH. Qed.

Lemma example_parse_compact_compact h p s :
  example_parse_compact (example_compact h p s)
  = Some {| protected := h; payload := Some p; signature := s;
            data := example_signing_input h p |}.
Proof.
  unfold example_parse_compact, example_compact.
  rewrite string_to_pos_to_string. simpl. by rewrite decode_encode.
Qed.

#[global] Instance example_platform_laws : PlatformLaws example_platform.
Proof.
  split.
  - exact list_byte_of_string_of_list_byte.
  - reflexivity.
  - exact example_parse_compact_compact.
  - reflexivity.
Qed.

(** ** The example issuance *)

Lemma Object_fromEntries_email_nbf :
  Object_fromEntries email_form !! "nbf" = None.
Proof. by rewrite Object_fromEntries_lookup. Qed.

(** On the example platform the issued token comes back under
    [far_options]. *)
Lemma example_callback_ok :
  authenticate (P := example_platform) far_options (example_world example_now)
    (callback_request example_token example_key)
  = Verify example_validation.
Proof.
  refine (callback_issued_ok (P := example_platform) far_options far_options
            (example_world example_now) (example_world example_now) email_form
            Object_fromEntries_email_nbf _ _ _).
  - vm_compute. reflexivity.
  - vm_compute. discriminate.
  - vm_compute. discriminate.
Qed.

(** Under [default_options] it is refused in the second it was issued:
    its ["exp"] is the number 300. *)
Lemma default_callback_expired :
  authenticate (P := example_platform) default_options
    (example_world example_now) (callback_request default_token example_key)
  = Threw (JWTExpired "exp" "check_failed").
Proof.
  pose proof (callback_issued_expired (P := example_platform) default_options
                default_options (example_world example_now)
                (example_world example_now) email_form) as H.
  rewrite Object_fromEntries_email_nbf in H. apply H.
  vm_compute. discriminate.
Qed.

(** * The claims *)

Section Dispatch.
Context {P : Platform} {L : PlatformLaws P}.

(** The dispatch as a table over the two parameters, empty values
    dropped. *)
Lemma authenticate_absent_if_empty (options : Options) (w : World)
    (request : Request) :
  authenticate options w request
  = match absent_if_empty (searchParams_get "token" (searchParams request)),
          absent_if_empty (searchParams_get "key" (searchParams request))
    with
    | Some _, None =>
        Threw (Error_ "Attempted to validate, but missing key in URL.")
    | None, Some _ =>
        Threw (Error_ "Attempted to validate, but missing token in URL.")
    | None, None => generate options w request
    | Some jwt, Some k => validate options w jwt k
    end.
Proof.
  unfold authenticate, absent_if_empty.
  destruct (searchParams_get "token" (searchParams request)) as [t|];
    destruct (searchParams_get "key" (searchParams request)) as [k|];
    simpl; repeat (destruct (String.eqb _ ""); simpl); reflexivity.
Qed.

(** C4, as the code has it: the dispatch reads the two parameters by
    their truthiness, so "present" means present with a non-empty value.
    With exactly one of [token] and [key] non-empty, [authenticate] throws
    the error that names the missing one and reaches neither branch nor the
    callback; with neither it runs the issuer, with both the verifier. *)
Theorem mode_dispatch (options : Options) (w : World) (request : Request) :
  (truthy (searchParams_get "token" (searchParams request)) = true ->
   truthy (searchParams_get "key" (searchParams request)) = false ->
   authenticate options w request
   = Threw (Error_ "Attempted to validate, but missing key in URL."))
  /\ (truthy (searchParams_get "token" (searchParams request)) = false ->
      truthy (searchParams_get "key" (searchParams request)) = true ->
      authenticate options w request
      = Threw (Error_ "Attempted to validate, but missing token in URL."))
  /\ (truthy (searchParams_get "token" (searchParams request)) = false ->
      truthy (searchParams_get "key" (searchParams request)) = false ->
      authenticate options w request = generate options w request)
  /\ (truthy (searchParams_get "token" (searchParams request)) = true ->
      truthy (searchParams_get "key" (searchParams request)) = true ->
      exists jwt k,
        searchParams_get "token" (searchParams request) = Some jwt
        /\ searchParams_get "key" (searchParams request) = Some k
        /\ authenticate options w request = validate options w jwt k).
Proof.
  repeat split.
  - apply authenticate_missing_key.
  - apply authenticate_missing_token.
  - apply authenticate_generate.
  - apply authenticate_both.
Qed.

(** C9: a parameter with the empty string as value is read as an absent
    one.  Two requests with the same body whose [token] and [key] agree up
    to that have the same outcome; [?token=abc&key=] throws the
    missing-key error and [?token=&key=] runs the issuer, as a request
    without a query does. *)
Theorem empty_parameter_is_absent (options : Options) (w : World)
    (body : option FormData) :
  (forall request request' : Request,
      formData request = formData request' ->
      absent_if_empty (searchParams_get "token" (searchParams request))
      = absent_if_empty (searchParams_get "token" (searchParams request')) ->
      absent_if_empty (searchParams_get "key" (searchParams request))
      = absent_if_empty (searchParams_get "key" (searchParams request')) ->
      authenticate options w request = authenticate options w request')
  /\ authenticate options w
       {| searchParams := [("token", "abc"); ("key", "")]; formData := body |}
     = Threw (Error_ "Attempted to validate, but missing key in URL.")
  /\ authenticate options w
       {| searchParams := [("token", ""); ("key", "")]; formData := body |}
     = generate options w {| searchParams := []; formData := body |}.
Proof.
  split; [|split; reflexivity].
  intros request request' Hbody Ht Hk.
  rewrite !authenticate_absent_if_empty, Ht, Hk.
  repeat case_match; try done.
  unfold generate. by rewrite Hbody.
Qed.

(** C3: whenever [authenticate] reaches the callback in verifier mode
    (both parameters non-empty), the object it passes has no property
    [key]: it holds only [form], a verified claims set, and [token], the
    token of the request. *)
Theorem validation_outcome_has_no_key (options : Options) (w : World)
    (request : Request) (o : VerifyOptions) :
  truthy (searchParams_get "token" (searchParams request)) = true ->
  truthy (searchParams_get "key" (searchParams request)) = true ->
  authenticate options w request = Verify o ->
  key o = None
  /\ (exists p, form o = Payload_ p)
  /\ searchParams_get "token" (searchParams request) = Some (token o).
Proof.
  intros Ht Hk Ho.
  destruct (authenticate_both options w request Ht Hk) as (jwt & k & Ej & _ & Hv).
  rewrite Hv in Ho. unfold validate in Ho.
  destruct (jwtVerify _ _ _ _) as [e|p]; simplify_eq. simpl. eauto.
Qed.
End Dispatch.

(** C4 at a request with only [token], non-empty: the missing-key error. *)
Lemma mode_dispatch_witness :
  truthy (searchParams_get "token" [("token", "abc")]) = true
  /\ truthy (searchParams_get "key" [("token", "abc")]) = false
  /\ authenticate (P := example_platform) default_options
       (example_world example_now)
       {| searchParams := [("token", "abc")]; formData := None |}
     = Threw (Error_ "Attempted to validate, but missing key in URL.").
Proof.
  split; [reflexivity|]. split; [reflexivity|].
  exact (proj1 (mode_dispatch (P := example_platform) default_options
                  (example_world example_now)
                  {| searchParams := [("token", "abc")]; formData := None |})
           eq_refl eq_refl).
Defined.

(** C4 as stated fails on [?token=]: exactly one of the two parameters is
    in the URL, and yet [authenticate] runs the issuer and calls the callback
    with a fresh token and key. *)
Lemma mode_dispatch_counterexample :
  searchParams_get "token" (searchParams empty_token_request) = Some ""
  /\ searchParams_get "key" (searchParams empty_token_request) = None
  /\ authenticate (P := example_platform) default_options
       (example_world example_now) empty_token_request
     = Verify {| form := FormData_ email_form; token := default_token;
                 key := Some example_key |}.
Proof.
  split; [reflexivity|]. split; [reflexivity|].
  rewrite (authenticate_generate (P := example_platform) default_options
             (example_world example_now) empty_token_request eq_refl eq_refl).
  exact (generate_issued (P := example_platform) default_options
           (example_world example_now) empty_token_request email_form eq_refl).
Qed.

(** C9 at [?token=abc&key=] against [?token=abc]. *)
Lemma empty_parameter_is_absent_witness :
  authenticate (P := example_platform) default_options
    (example_world example_now)
    {| searchParams := [("token", "abc"); ("key", "")]; formData := None |}
  = authenticate (P := example_platform) default_options
      (example_world example_now)
      {| searchParams := [("token", "abc")]; formData := None |}.
Proof.
  exact (proj1 (empty_parameter_is_absent (P := example_platform)
                  default_options (example_world example_now) None)
           {| searchParams := [("token", "abc"); ("key", "")]; formData := None |}
           {| searchParams := [("token", "abc")]; formData := None |}
           eq_refl eq_refl eq_refl).
Defined.

(** C3 at the callback request of the example issuance. *)
Lemma validation_outcome_has_no_key_witness :
  authenticate (P := example_platform) far_options (example_world example_now)
    (callback_request example_token example_key)
  = Verify example_validation
  /\ key example_validation = None
  /\ (exists p, form example_validation = Payload_ p)
  /\ searchParams_get "token"
       (searchParams (callback_request example_token example_key))
     = Some (token example_validation).
Proof.
  split; [exact example_callback_ok|].
  refine (validation_outcome_has_no_key (P := example_platform) far_options
            (example_world example_now)
            (callback_request example_token example_key) example_validation
            _ _ example_callback_ok).
  - exact (truthy_nonempty _ (issued_token_nonempty (P := example_platform) _ _ _)).
  - exact (truthy_nonempty _ (issued_key_nonempty (P := example_platform) _)).
Defined.

Section Verification.
Context {P : Platform} {L : PlatformLaws P}.

(** C6, as the code has it: the verifier branch neither catches nor
    wraps.  Whatever [jwtVerify] throws is what [authenticate] throws, and
    the callback is reached only when it returns; each check that fails
    has an error of its own: a malformed token [JWSInvalid], a bad
    signature or wrong key [JWSSignatureVerificationFailed], an expired
    token [JWTExpired], a token that is not yet valid
    [JWTClaimValidationFailed]. *)
Theorem verification_errors_pass_through (options : Options) (w : World)
    (request : Request) (jwt k : string) :
  searchParams_get "token" (searchParams request) = Some jwt -> jwt <> "" ->
  searchParams_get "key" (searchParams request) = Some k -> k <> "" ->
  authenticate options w request
  = match
      jwtVerify jwt (base64url_decode k)
        {| clockTolerance := 10; maxTokenAge := expiry options |} w
    with
    | inl e => Threw e
    | inr p => Verify {| form := Payload_ p; token := jwt; key := None |}
    end
  /\ (parse_compact jwt = None ->
      authenticate options w request = Threw JWSInvalid)
  /\ (forall jws,
        parse_compact jwt = Some jws -> alg (protected jws) = "HS256" ->
        base64url_decode k <> [] ->
        hmac SHA256 (base64url_decode k) (data jws) <> signature jws ->
        authenticate options w request = Threw JWSSignatureVerificationFailed)
  /\ (forall jws p iat exp,
        parse_compact jwt = Some jws -> alg (protected jws) = "HS256" ->
        base64url_decode k <> [] ->
        hmac SHA256 (base64url_decode k) (data jws) = signature jws ->
        payload jws = Some p ->
        p !! "iat" = Some (JNum iat) -> p !! "nbf" = None ->
        p !! "exp" = Some (JNum exp) -> exp <= Date_now w - 10 ->
        authenticate options w request = Threw (JWTExpired "exp" "check_failed"))
  /\ (forall jws p iat nbf,
        parse_compact jwt = Some jws -> alg (protected jws) = "HS256" ->
        base64url_decode k <> [] ->
        hmac SHA256 (base64url_decode k) (data jws) = signature jws ->
        payload jws = Some p ->
        p !! "iat" = Some (JNum iat) ->
        p !! "nbf" = Some (JNum nbf) -> Date_now w + 10 < nbf ->
        authenticate options w request
        = Threw (JWTClaimValidationFailed "nbf" "check_failed")).
Proof.
  intros Ht Hjwt Hk Hkey.
  rewrite (authenticate_validate options w request jwt k Ht Hjwt Hk Hkey).
  unfold validate, jwtVerify.
  split; [reflexivity|]. split; [by intros ->|].
  split; [|split].
  - intros jws -> Halg Hbytes Hmac. rewrite Halg. simpl.
    rewrite hs_mac_HS256 by done. by rewrite bool_decide_eq_false_2.
  - intros jws p iat exp -> Halg Hbytes Hmac Hp Hiat Hnbf Hexp Hlate.
    rewrite Halg. simpl. rewrite hs_mac_HS256 by done.
    rewrite bool_decide_eq_true_2 by done. rewrite Hp.
    unfold validateClaimsSet. simpl. rewrite Hiat, Hnbf, Hexp.
    by destruct (Z.leb_spec exp (Date_now w - 10)); [|lia].
  - intros jws p iat nbf -> Halg Hbytes Hmac Hp Hiat Hnbf Hsoon.
    rewrite Halg. simpl. rewrite hs_mac_HS256 by done.
    rewrite bool_decide_eq_true_2 by done. rewrite Hp.
    unfold validateClaimsSet. simpl. rewrite Hiat, Hnbf.
    by destruct (Z.ltb_spec (Date_now w + 10) nbf); [|lia].
Qed.

(** C5, as the code has it: the verifier compares MACs, not keys.  A key
    [k'] whose bytes give another HS256 MAC over the token's signing input
    is refused with [JWSSignatureVerificationFailed] and the callback is
    not reached; a key whose bytes give the same MAC verifies the token
    exactly as the issued key does. *)
Theorem wrong_key_fails_by_mac (options options' : Options) (w w' : World)
    (entries : FormData) (k' : string) :
  k' <> "" -> base64url_decode k' <> [] ->
  authenticate options' w'
    (callback_request (issued_token options w entries) k')
  = if bool_decide
         (hmac SHA256 (base64url_decode k')
            (signing_input issued_header (issued_claims options w entries))
          = hmac SHA256 (randomBytes 32 w)
              (signing_input issued_header (issued_claims options w entries)))
    then
      authenticate options' w'
        (callback_request (issued_token options w entries) (issued_key w))
    else Threw JWSSignatureVerificationFailed.
Proof.
  intros Hk Hbytes.
  rewrite callback_issued.
  rewrite authenticate_callback by (apply issued_token_nonempty || done).
  by rewrite validate_issued.
Qed.

(** C7, as the code has it: on success the callback's [form] is the whole
    verified claims set.  For an issued token that is the object made
    from the form at issuance with the numeric claims ["iat"] (the time
    of issuance) and ["exp"] in it, which replace form fields of those
    names; every other field is the form's.  The [token] is the
    token string of the request. *)
Theorem validated_form_is_claims_set (options options' : Options)
    (w w' : World) (entries : FormData) (o : VerifyOptions) :
  authenticate options' w'
    (callback_request (issued_token options w entries) (issued_key w))
  = Verify o ->
  token o = issued_token options w entries
  /\ exists p,
      form o = Payload_ p
      /\ p !! "iat" = Some (JNum (Date_now w))
      /\ (exists n, p !! "exp" = Some (JNum n))
      /\ forall name, name <> "iat" -> name <> "exp" ->
           p !! name = Object_fromEntries entries !! name.
Proof.
  rewrite callback_issued_checks. intros Ho.
  repeat case_match; simplify_eq. simpl. split; [done|].
  exists (issued_claims options w entries). split; [done|].
  split; [apply issued_claims_iat|].
  split; [eexists; apply issued_claims_exp|].
  intros name. apply issued_claims_other.
Qed.

(** C1, as the code has it: on a request whose body decodes to a form
    [F] without a field [nbf], at a clock not before the epoch, the issuer
    yields a token and a key; the token carries the fields of
    [Object.fromEntries(F)] together with the claims ["iat"] (the clock)
    and ["exp"], which take the place of fields of those names; and the
    verifier, run with that token and key under the same clock, succeeds
    whenever the token's ["exp"] has not passed, and passes the callback
    the same token, no key and, as form, exactly the claims the token
    carries. *)
Theorem roundtrip_form (options : Options) (w : World) (request : Request)
    (entries : FormData) :
  truthy (searchParams_get "token" (searchParams request)) = false ->
  truthy (searchParams_get "key" (searchParams request)) = false ->
  formData request = Some entries ->
  ~ In "nbf" (map fst entries) ->
  0 <= Date_now w ->
  exists g k jws p n,
    authenticate options w request = Verify g
    /\ form g = FormData_ entries /\ key g = Some k
    /\ parse_compact (token g) = Some jws /\ payload jws = Some p
    /\ p !! "iat" = Some (JNum (Date_now w))
    /\ p !! "exp" = Some (JNum n)
    /\ (forall name, name <> "iat" -> name <> "exp" ->
          p !! name = Object_fromEntries entries !! name)
    /\ (Date_now w - 10 < n ->
        authenticate options w (callback_request (token g) k)
        = Verify {| form := Payload_ p; token := token g; key := None |}).
Proof.
  intros Ht Hk Hf Hnbf Hclock.
  rewrite (authenticate_issuer options w request entries Ht Hk Hf).
  eexists _, _, _, (issued_claims options w entries), (expiry options).
  split; [reflexivity|]. simpl.
  split; [reflexivity|]. split; [reflexivity|].
  split; [unfold issued_token; apply parse_compact_compact|].
  split; [reflexivity|].
  split; [apply issued_claims_iat|].
  split; [apply issued_claims_exp|].
  split; [intros name; apply issued_claims_other|].
  intros Hexp. apply callback_issued_ok.
  - by apply Object_fromEntries_absent.
  - exact Hexp.
  - lia.
  - lia.
Qed.
End Verification.

Lemma example_claims_not_the_form :
  example_claims !! "iat" = Some (JNum 1700000000)
  /\ example_claims !! "exp" = Some (JNum 2000000000)
  /\ Object_fromEntries email_form !! "iat" = None
  /\ Object_fromEntries email_form !! "exp" = None.
Proof.
  split; [exact (issued_claims_iat _ _ _)|].
  split; [exact (issued_claims_exp _ _ _)|].
  by rewrite !Object_fromEntries_lookup.
Qed.

(** C6 at the token [x], which is no compact JWS, with the key [a2V5]. *)
Lemma verification_errors_pass_through_witness :
  parse_compact (Platform := example_platform) "x" = None
  /\ authenticate (P := example_platform) default_options
       (example_world example_now) (callback_request "x" "a2V5")
     = Threw JWSInvalid.
Proof.
  split; [reflexivity|].
  refine (proj1 (proj2 (verification_errors_pass_through
                          (P := example_platform) default_options
                          (example_world example_now)
                          (callback_request "x" "a2V5") "x" "a2V5"
                          eq_refl _ eq_refl _)) eq_refl);
    discriminate.
Defined.

(** C6 as stated fails: a malformed token and an expired token are
    refused with two different errors, so the error tells the caller which
    check failed. *)
Lemma uniform_failure_counterexample :
  authenticate (P := example_platform) default_options
    (example_world example_now) (callback_request "x" "a2V5")
  = Threw JWSInvalid
  /\ authenticate (P := example_platform) default_options
       (example_world example_now) (callback_request default_token example_key)
     = Threw (JWTExpired "exp" "check_failed")
  /\ JWSInvalid <> JWTExpired "exp" "check_failed".
Proof.
  split; [vm_compute; reflexivity|].
  split; [exact default_callback_expired|discriminate].
Qed.

(** On the example platform the key [a2V5] gives another MAC than the
    issued key, and is refused. *)
Lemma example_wrong_key_refused :
  authenticate (P := example_platform) far_options (example_world example_now)
    (callback_request example_token "a2V5")
  = Threw JWSSignatureVerificationFailed.
Proof.
  unfold example_token.
  rewrite (authenticate_callback (P := example_platform) far_options
             (example_world example_now) _ "a2V5"
             (issued_token_nonempty _ _ _)) by discriminate.
  rewrite (validate_issued (P := example_platform)) by (vm_compute; discriminate).
  rewrite bool_decide_eq_false_2; [reflexivity|].
  generalize (signing_input (Platform := example_platform) issued_header
                (issued_claims far_options (example_world example_now) email_form)).
  intros msg H. apply (f_equal (take 1)) in H. vm_compute in H. discriminate.
Qed.

(** C5 at the key [a2V5]. *)
Lemma wrong_key_fails_by_mac_witness :
  "a2V5" <> ""
  /\ base64url_decode (Platform := example_platform) "a2V5" <> []
  /\ authenticate (P := example_platform) far_options
       (example_world example_now) (callback_request example_token "a2V5")
     = if bool_decide
            (hmac (P := example_platform) SHA256
               (base64url_decode (Platform := example_platform) "a2V5")
               (signing_input (Platform := example_platform) issued_header
                  example_claims)
             = hmac (P := example_platform) SHA256
                 (randomBytes 32 (example_world example_now))
                 (signing_input (Platform := example_platform) issued_header
                    example_claims))
       then
         authenticate (P := example_platform) far_options
           (example_world example_now)
           (callback_request example_token example_key)
       else Threw JWSSignatureVerificationFailed.
Proof.
  assert (H1 : "a2V5" <> "") by discriminate.
  assert (H2 : base64url_decode (Platform := example_platform) "a2V5" <> [])
    by (vm_compute; discriminate).
  split; [exact H1|]. split; [exact H2|].
  exact (wrong_key_fails_by_mac (P := example_platform) far_options far_options
           (example_world example_now) (example_world example_now)
           email_form "a2V5" H1 H2).
Defined.

(** C5 as stated fails: the issued key followed by a zero byte is another
    key, and the token verifies with it. *)
Lemma key_mismatch_counterexample :
  zero_extended_key <> example_key
  /\ authenticate (P := example_platform) far_options
       (example_world example_now)
       (callback_request example_token zero_extended_key)
     = Verify example_validation.
Proof.
  split.
  - intros H. apply (base64url_encode_inj (P := example_platform)) in H.
    apply (f_equal length) in H. rewrite length_app, randomBytes_length in H.
    simpl in H. lia.
  - exact (eq_trans
             (callback_zero_extended_key (P := example_platform) far_options
                far_options (example_world example_now)
                (example_world example_now) email_form)
             example_callback_ok).
Qed.

(** C7 at the callback request of the example issuance. *)
Lemma validated_form_is_claims_set_witness :
  authenticate (P := example_platform) far_options (example_world example_now)
    (callback_request example_token example_key)
  = Verify example_validation
  /\ token example_validation = example_token
  /\ exists p,
      form example_validation = Payload_ p
      /\ p !! "iat" = Some (JNum (Date_now (example_world example_now)))
      /\ (exists n, p !! "exp" = Some (JNum n))
      /\ forall name, name <> "iat" -> name <> "exp" ->
           p !! name = Object_fromEntries email_form !! name.
Proof.
  split; [exact example_callback_ok|].
  exact (validated_form_is_claims_set (P := example_platform) far_options
           far_options (example_world example_now) (example_world example_now)
           email_form example_validation example_callback_ok).
Defined.

(** C7 as stated fails: the form passed for the example issuance has the
    fields ["iat"] and ["exp"], which the original form has not. *)
Lemma validated_form_counterexample :
  authenticate (P := example_platform) far_options (example_world example_now)
    (callback_request example_token example_key)
  = Verify {| form := Payload_ example_claims; token := example_token;
              key := None |}
  /\ example_claims !! "iat" = Some (JNum 1700000000)
  /\ example_claims !! "exp" = Some (JNum 2000000000)
  /\ Object_fromEntries email_form !! "iat" = None
  /\ Object_fromEntries email_form !! "exp" = None.
Proof. split; [exact example_callback_ok|exact example_claims_not_the_form]. Qed.

(** C1 at the example issuance: the token's ["exp"] is ahead of the
    clock, and the verifier succeeds. *)
Lemma roundtrip_form_witness :
  ~ In "nbf" (map fst email_form)
  /\ 0 <= Date_now (example_world example_now)
  /\ exists g k p n,
      authenticate (P := example_platform) far_options
        (example_world example_now) (login_request email_form)
      = Verify g
      /\ form g = FormData_ email_form /\ key g = Some k
      /\ p !! "iat" = Some (JNum (Date_now (example_world example_now)))
      /\ p !! "exp" = Some (JNum n)
      /\ Date_now (example_world example_now) - 10 < n
      /\ authenticate (P := example_platform) far_options
           (example_world example_now) (callback_request (token g) k)
         = Verify {| form := Payload_ p; token := token g; key := None |}.
Proof.
  assert (H1 : ~ In "nbf" (map fst email_form))
    by (simpl; intros [H|[]]; discriminate).
  assert (H2 : 0 <= Date_now (example_world example_now)) by discriminate.
  split; [exact H1|]. split; [exact H2|].
  destruct (roundtrip_form (P := example_platform) far_options
              (example_world example_now) (login_request email_form)
              email_form eq_refl eq_refl eq_refl H1 H2)
    as (g & k & jws & p & n & Hg & Hform & Hk & Hparse & Hp & Hiat & Hexp
        & _ & Hsucc).
  assert (Hn : n = 2000000000).
  { rewrite (authenticate_login (P := example_platform) far_options
               (example_world example_now) email_form) in Hg.
    injection Hg as <-. simpl in Hparse. unfold issued_token in Hparse.
    rewrite (parse_compact_compact (P := example_platform)) in Hparse.
    injection Hparse as <-. simpl in Hp. injection Hp as <-.
    rewrite issued_claims_exp in Hexp.
    by injection Hexp as <-. }
  exists g, k, p, n. repeat split; try assumption.
  - rewrite Hn. reflexivity.
  - apply Hsucc. rewrite Hn. reflexivity.
Defined.

(** C1 as stated fails, twice.  For the form [email_form] the verifier
    succeeds, and the form it passes is not the mapping [F]: it has ["iat"]
    and ["exp"] too.  For the form [nbf_form] the issuer yields a token and
    a key, and the verifier, run with them in the same second, refuses the
    token: its ["nbf"] is the string of the form, not a number. *)
Lemma roundtrip_counterexample :
  (authenticate (P := example_platform) far_options (example_world example_now)
     (login_request email_form)
   = Verify {| form := FormData_ email_form; token := example_token;
               key := Some example_key |}
   /\ authenticate (P := example_platform) far_options
        (example_world example_now)
        (callback_request example_token example_key)
      = Verify {| form := Payload_ example_claims; token := example_token;
                  key := None |}
   /\ example_claims <> Object_fromEntries email_form)
  /\ (authenticate (P := example_platform) far_options
        (example_world example_now) (login_request nbf_form)
      = Verify {| form := FormData_ nbf_form;
                  token := issued_token (P := example_platform) far_options
                             (example_world example_now) nbf_form;
                  key := Some example_key |}
      /\ authenticate (P := example_platform) far_options
           (example_world example_now)
           (callback_request
              (issued_token (P := example_platform) far_options
                 (example_world example_now) nbf_form)
              example_key)
         = Threw (JWTClaimValidationFailed "nbf" "invalid")).
Proof.
  split; split.
  - exact (authenticate_login (P := example_platform) far_options
             (example_world example_now) email_form).
  - split; [exact example_callback_ok|].
    intros H. apply (f_equal (fun m : JWTPayload => m !! "iat")) in H.
    destruct example_claims_not_the_form as (Hi & _ & Hf & _).
    rewrite Hi, Hf in H. discriminate.
  - exact (authenticate_login (P := example_platform) far_options
             (example_world example_now) nbf_form).
  - pose proof (callback_issued_checks (P := example_platform) far_options
                  far_options (example_world example_now)
                  (example_world example_now) nbf_form) as H.
    assert (Hnbf : Object_fromEntries nbf_form !! "nbf" = Some (JStr "tomorrow"))
      by (by rewrite Object_fromEntries_lookup).
    rewrite Hnbf in H. exact H.
Qed.

Section Expiry.
Context {P : Platform} {L : PlatformLaws P}.

(** C2 on the code: one second past [issuedAt + E + 10] the token is
    refused, as claimed.  One second before it is refused as well,
    whenever it was issued after second 0 of the epoch: ["exp"] holds the
    number [E] itself, not [issuedAt + E], so the token has long expired.
    ([E] is [expiresIn || 300]; a form field [nbf] is refused first.) *)
Theorem expiry_boundary (options : Options) (w w' : World)
    (entries : FormData) :
  (Date_now w' = Date_now w + expiry options + 10 + 1 ->
   exists e,
     authenticate options w'
       (callback_request (issued_token options w entries) (issued_key w))
     = Threw e)
  /\ (0 < Date_now w ->
      Date_now w' = Date_now w + expiry options + 10 - 1 ->
      authenticate options w'
        (callback_request (issued_token options w entries) (issued_key w))
      = Threw (match Object_fromEntries entries !! "nbf" with
               | Some _ => JWTClaimValidationFailed "nbf" "invalid"
               | None => JWTExpired "exp" "check_failed"
               end)).
Proof.
  split.
  - intros Hnow. rewrite callback_issued_checks.
    destruct (Object_fromEntries entries !! "nbf"); [by eexists|].
    destruct (expiry options <=? Date_now w' - 10); [by eexists|].
    destruct (Z.ltb_spec (expiry options) (Date_now w' - Date_now w - 10));
      [by eexists|lia].
  - intros Hpos Hnow. apply callback_issued_expired. lia.
Qed.

(** C8 on the code: on a request whose body decodes to the form, the
    issuer signs with 32 bytes of the random source and hands them out
    base64url-encoded; the token holds the object made from the form with
    ["iat"] set to the clock and ["exp"] set to [expiresIn || 300] as it
    stands, which is not the clock plus that number unless the clock
    shows 0. *)
Theorem issued_token_construction (options : Options) (w : World)
    (request : Request) (entries : FormData) :
  truthy (searchParams_get "token" (searchParams request)) = false ->
  truthy (searchParams_get "key" (searchParams request)) = false ->
  formData request = Some entries ->
  authenticate options w request
  = Verify {| form := FormData_ entries;
              token := issued_token options w entries;
              key := Some (base64url_encode (randomBytes 32 w)) |}
  /\ length (randomBytes 32 w) = 32%nat
  /\ parse_compact (issued_token options w entries)
     = Some {| protected := {| alg := "HS256"; typ := Some "JWT" |};
               payload := Some (issued_claims options w entries);
               signature :=
                 hmac SHA256 (randomBytes 32 w)
                   (signing_input issued_header
                      (issued_claims options w entries));
               data :=
                 signing_input issued_header
                   (issued_claims options w entries) |}
  /\ issued_claims options w entries !! "iat" = Some (JNum (Date_now w))
  /\ issued_claims options w entries !! "exp" = Some (JNum (expiry options))
  /\ (forall name, name <> "iat" -> name <> "exp" ->
        issued_claims options w entries !! name
        = Object_fromEntries entries !! name)
  /\ (expiresIn options = None -> expiry options = 300)
  /\ (Date_now w <> 0 ->
      issued_claims options w entries !! "exp"
      <> Some (JNum (Date_now w + expiry options))).
Proof.
  intros Ht Hk Hf.
  split; [by apply authenticate_issuer|].
  split; [apply randomBytes_length|].
  split; [apply parse_compact_compact|].
  split; [apply issued_claims_iat|].
  split; [apply issued_claims_exp|].
  split; [intros name; apply issued_claims_other|].
  split; [unfold expiry; by intros ->|].
  intros Hnow. rewrite issued_claims_exp. intros [= H]. lia.
Qed.

(** C10 on the code: [expiresIn: 0] is the same configuration as no
    [expiresIn], the number 300 in both places.  As ["exp"] that number is
    second 300 of the epoch, so from second 310 on every token is refused
    in the second it was issued. *)
Theorem expiresIn_zero_is_unset (w : World) (request : Request) :
  authenticate {| expiresIn := Some 0 |} w request
  = authenticate {| expiresIn := None |} w request
  /\ expiry {| expiresIn := Some 0 |} = 300
  /\ (310 <= Date_now w ->
      forall entries,
        authenticate {| expiresIn := Some 0 |} w
          (callback_request
             (issued_token {| expiresIn := Some 0 |} w entries)
             (issued_key w))
        = Threw (match Object_fromEntries entries !! "nbf" with
                 | Some _ => JWTClaimValidationFailed "nbf" "invalid"
                 | None => JWTExpired "exp" "check_failed"
                 end)).
Proof.
  split; [reflexivity|]. split; [reflexivity|].
  intros Hnow entries. apply callback_issued_expired.
  change (expiry {| expiresIn := Some 0 |}) with 300. lia.
Qed.
End Expiry.

(** C2 at the default configuration: issued at [example_now], brought back
    309 seconds later. *)
Lemma expiry_boundary_witness :
  0 < Date_now (example_world example_now)
  /\ Date_now (example_world (example_now + 309))
     = Date_now (example_world example_now) + expiry default_options + 10 - 1
  /\ authenticate (P := example_platform) default_options
       (example_world (example_now + 309))
       (callback_request default_token example_key)
     = Threw (match Object_fromEntries email_form !! "nbf" with
              | Some _ => JWTClaimValidationFailed "nbf" "invalid"
              | None => JWTExpired "exp" "check_failed"
              end).
Proof.
  assert (H1 : 0 < Date_now (example_world example_now)) by reflexivity.
  assert (H2 : Date_now (example_world (example_now + 309))
               = Date_now (example_world example_now)
                 + expiry default_options + 10 - 1) by reflexivity.
  split; [exact H1|]. split; [exact H2|].
  exact (proj2 (expiry_boundary (P := example_platform) default_options
                  (example_world example_now)
                  (example_world (example_now + 309)) email_form) H1 H2).
Defined.

(** C8 at the default configuration: ["exp"] is 300, where the claim has
    1700000300. *)
Lemma issued_token_construction_witness :
  Date_now (example_world example_now) <> 0
  /\ issued_claims default_options (example_world example_now) email_form
       !! "exp"
     = Some (JNum 300)
  /\ issued_claims default_options (example_world example_now) email_form
       !! "exp"
     <> Some (JNum (Date_now (example_world example_now)
                    + expiry default_options)).
Proof.
  assert (H : Date_now (example_world example_now) <> 0) by discriminate.
  pose proof (issued_token_construction (P := example_platform)
                default_options (example_world example_now)
                (login_request email_form) email_form eq_refl eq_refl eq_refl)
    as (_ & _ & _ & _ & Hexp & _ & _ & Hne).
  split; [exact H|]. split; [exact Hexp|exact (Hne H)].
Defined.

(** C10 at [example_now]. *)
Lemma expiresIn_zero_is_unset_witness :
  310 <= Date_now (example_world example_now)
  /\ authenticate (P := example_platform) {| expiresIn := Some 0 |}
       (example_world example_now)
       (callback_request
          (issued_token (P := example_platform) {| expiresIn := Some 0 |}
             (example_world example_now) email_form)
          example_key)
     = Threw (match Object_fromEntries email_form !! "nbf" with
              | Some _ => JWTClaimValidationFailed "nbf" "invalid"
              | None => JWTExpired "exp" "check_failed"
              end).
Proof.
  assert (H : 310 <= Date_now (example_world example_now)) by discriminate.
  split; [exact H|].
  exact (proj2 (proj2 (expiresIn_zero_is_unset (P := example_platform)
                         (example_world example_now)
                         (login_request email_form))) H email_form).
Defined.

(** * Further properties of [authenticate] *)

(** ** The issuer *)

Section Further.
Context {P : Platform} {L : PlatformLaws P}.

Lemma jwtVerify_error_is_not_Error_ (jwt : string) (k : list byte)
    (options : JWTVerifyOptions) (w : World) (message : string) :
  jwtVerify jwt k options w <> inl (Error_ message).
Proof.
  unfold jwtVerify, hs_mac, validateClaimsSet. cbv zeta. intros H.
  repeat case_match; simplify_eq.
Qed.

(** X1: the last statement of [authenticate], [throw new Error("Unexpected
    state.")], is never reached: whatever the request, the clock and the
    configuration, [authenticate] does not throw that error. *)
Theorem unexpected_state_never_thrown (options : Options) (w : World)
    (request : Request) :
  authenticate options w request <> Threw (Error_ "Unexpected state.").
Proof.
  rewrite authenticate_absent_if_empty.
  destruct (absent_if_empty (searchParams_get "token" (searchParams request)))
    as [jwt|];
    destruct (absent_if_empty (searchParams_get "key" (searchParams request)))
    as [k|]; try discriminate.
  - unfold validate.
    pose proof (jwtVerify_error_is_not_Error_ jwt (base64url_decode k)
                  {| clockTolerance := 10; maxTokenAge := expiry options |} w
                  "Unexpected state.") as Hv.
    destruct (jwtVerify _ _ _ _) as [e|p]; [|discriminate].
    intros [= ->]. by apply Hv.
  - destruct (formData request) as [entries|] eqn:Hf.
    + by rewrite (generate_issued options w request entries Hf).
    + unfold generate. rewrite Hf. discriminate.
Qed.

(** X3: the pair the issuer hands to the callback fits together.  The key,
    decoded as the verifier decodes it, is 32 bytes long, and the token reads
    back as an HS256 JWS whose signature is the MAC of its signing input
    under exactly those bytes. *)
Theorem issued_pair_is_consistent (options : Options) (w : World)
    (request : Request) (entries : FormData) :
  truthy (searchParams_get "token" (searchParams request)) = false ->
  truthy (searchParams_get "key" (searchParams request)) = false ->
  formData request = Some entries ->
  exists g k jws,
    authenticate options w request = Verify g
    /\ key g = Some k
    /\ length (base64url_decode k) = 32%nat
    /\ parse_compact (token g) = Some jws
    /\ alg (protected jws) = "HS256"
    /\ signature jws = hmac SHA256 (base64url_decode k) (data jws).
Proof.
  intros Ht Hk Hf.
  rewrite (authenticate_issuer options w request entries Ht Hk Hf).
  eexists _, _, _. split; [reflexivity|]. simpl. split; [reflexivity|].
  unfold issued_key, issued_token.
  rewrite base64url_decode_encode, parse_compact_compact.
  split; [apply randomBytes_length|]. by repeat split.
Qed.

(** X4: neither the token nor the key that the issuer hands out is the
    empty string, so a callback request that carries the two is always
    dispatched to the verifier, under any configuration and clock: not to the
    issuer, and not to one of the two missing-parameter errors. *)
Theorem issued_pair_reaches_verifier (options options' : Options)
    (w w' : World) (request : Request) (g : VerifyOptions) (k : string) :
  truthy (searchParams_get "token" (searchParams request)) = false ->
  truthy (searchParams_get "key" (searchParams request)) = false ->
  authenticate options w request = Verify g ->
  key g = Some k ->
  token g <> "" /\ k <> ""
  /\ authenticate options' w' (callback_request (token g) k)
     = validate options' w' (token g) k.
Proof.
  intros Ht Hk Hg Hkey. rewrite authenticate_generate in Hg by done.
  destruct (formData request) as [entries|] eqn:Hf.
  - rewrite (generate_issued options w request entries Hf) in Hg.
    simplify_eq. simpl in *. simplify_eq.
    pose proof (issued_token_nonempty options w entries).
    pose proof (issued_key_nonempty w).
    repeat split; [done..|]. by apply authenticate_callback.
  - unfold generate in Hg. by rewrite Hf in Hg.
Qed.

(** X5: when the form has several entries of one name, the issuer's
    callback receives them all, and the token carries the last one: after
    verification the callback's form has, under that name, the value of the
    last entry of that name (for every name but ["iat"] and ["exp"]). *)
Theorem last_form_value_reaches_verifier (options options' : Options)
    (w w' : World) (before after : FormData) (name v : string)
    (o : VerifyOptions) :
  name <> "iat" -> name <> "exp" ->
  ~ In name (map fst after) ->
  authenticate options' w'
    (callback_request
       (issued_token options w (before ++ (name, v) :: after)) (issued_key w))
  = Verify o ->
  (exists g,
      authenticate options w (login_request (before ++ (name, v) :: after))
      = Verify g
      /\ form g = FormData_ (before ++ (name, v) :: after))
  /\ exists p, form o = Payload_ p /\ p !! name = Some (JStr v).
Proof.
  intros Hiat Hexp Hafter. rewrite callback_issued_checks. intros Ho. split.
  - rewrite authenticate_login. by eexists.
  - repeat case_match; simplify_eq. simpl. eexists. split; [reflexivity|].
    rewrite issued_claims_other by done. by apply Object_fromEntries_last.
Qed.

(** X6: a form with a field named [nbf] yields a token that no verifier
    accepts: the field is signed as a string, and the claims check refuses
    a ["nbf"] that is not a number, under every configuration and clock. *)
Theorem form_field_nbf_blocks_verification (options options' : Options)
    (w w' : World) (entries : FormData) (v : string) :
  In ("nbf", v) entries ->
  authenticate options' w'
    (callback_request (issued_token options w entries) (issued_key w))
  = Threw (JWTClaimValidationFailed "nbf" "invalid").
Proof.
  intros Hin. rewrite callback_issued_checks.
  pose proof (Object_fromEntries_present entries "nbf" v Hin) as Hp.
  by destruct (Object_fromEntries entries !! "nbf").
Qed.
End Further.

(** ** The verifier *)

Section FurtherVerifier.
Context {P : Platform} {L : PlatformLaws P}.

Lemma absent_if_empty_None (x : option string) :
  absent_if_empty x = None <-> truthy x = false.
Proof.
  unfold absent_if_empty. destruct (truthy x) eqn:E; [|done].
  split; [|done]. intros ->. done.
Qed.

(** X7: when an issued token is accepted.  Brought back with its key, a
    token issued under [options] at the clock [w] is accepted under
    [options'] at the clock [w'] exactly when the form has no field [nbf],
    the number [expiresIn || 300] of the issuer, read as a point in time, is
    less than ten seconds behind the verifier's clock, the token is at most
    the verifier's [expiresIn || 300] plus ten seconds old, and it was
    issued at most ten seconds ahead of the verifier's clock. *)
Theorem issued_token_accepted_iff (options options' : Options) (w w' : World)
    (entries : FormData) :
  (exists o,
      authenticate options' w'
        (callback_request (issued_token options w entries) (issued_key w))
      = Verify o)
  <-> ~ In "nbf" (map fst entries)
      /\ Date_now w' - 10 < expiry options
      /\ Date_now w' - Date_now w - 10 <= expiry options'
      /\ 0 - 10 <= Date_now w' - Date_now w.
Proof.
  rewrite callback_issued_checks. split.
  - intros [o Ho].
    destruct (Object_fromEntries entries !! "nbf") eqn:Hnbf; [done|].
    destruct (Z.leb_spec (expiry options) (Date_now w' - 10)); [done|].
    destruct (Z.ltb_spec (expiry options') (Date_now w' - Date_now w - 10));
      [done|].
    destruct (Z.ltb_spec (Date_now w' - Date_now w) (0 - 10)); [done|].
    repeat split; try lia.
    intros Hin. apply in_map_iff in Hin as [[n v] [Hn Hin]]. simpl in Hn.
    subst n. by apply (Object_fromEntries_present entries "nbf" v).
  - intros (Hnbf & Hexp & Hage & Hiat).
    rewrite (Object_fromEntries_absent entries "nbf" Hnbf).
    destruct (Z.leb_spec (expiry options) (Date_now w' - 10)); [lia|].
    destruct (Z.ltb_spec (expiry options') (Date_now w' - Date_now w - 10));
      [lia|].
    destruct (Z.ltb_spec (Date_now w' - Date_now w) (0 - 10)); [lia|].
    by eexists.
Qed.


(** X9: outside issuer mode [authenticate] reads nothing but the query and
    the clock.  When [token] or [key] is non-empty, neither the body of the
    request nor the random source has any effect on the outcome. *)
Theorem verifier_reads_only_query_and_clock (options : Options) (w w' : World)
    (query : list (string * string)) (body body' : option FormData) :
  truthy (searchParams_get "token" query) = true
  \/ truthy (searchParams_get "key" query) = true ->
  Date_now w = Date_now w' ->
  authenticate options w {| searchParams := query; formData := body |}
  = authenticate options w' {| searchParams := query; formData := body' |}.
Proof.
  intros Hmode Hnow. rewrite !authenticate_absent_if_empty. simpl.
  destruct (absent_if_empty (searchParams_get "token" query)) as [jwt|] eqn:Et;
    destruct (absent_if_empty (searchParams_get "key" query)) as [k|] eqn:Ek;
    try reflexivity.
  - unfold validate, jwtVerify. by rewrite Hnow.
  - apply absent_if_empty_None in Et, Ek.
    destruct Hmode as [H|H]; congruence.
Qed.

End FurtherVerifier.

(** ** The further properties on the example platform *)

(** X3 at the example issuance. *)
Lemma issued_pair_is_consistent_witness :
  formData (login_request email_form) = Some email_form
  /\ exists g k jws,
      authenticate (P := example_platform) far_options
        (example_world example_now) (login_request email_form)
      = Verify g
      /\ key g = Some k
      /\ length (base64url_decode (Platform := example_platform) k) = 32%nat
      /\ parse_compact (Platform := example_platform) (token g) = Some jws
      /\ alg (protected jws) = "HS256"
      /\ signature jws
         = hmac (P := example_platform) SHA256
             (base64url_decode (Platform := example_platform) k) (data jws).
Proof.
  split; [reflexivity|].
  exact (issued_pair_is_consistent (P := example_platform) far_options
           (example_world example_now) (login_request email_form) email_form
           eq_refl eq_refl eq_refl).
Defined.

(** X4 at the example issuance, brought back under the default
    configuration five minutes later. *)
Lemma issued_pair_reaches_verifier_witness :
  authenticate (P := example_platform) far_options (example_world example_now)
    (login_request email_form)
  = Verify {| form := FormData_ email_form; token := example_token;
              key := Some example_key |}
  /\ example_token <> "" /\ example_key <> ""
  /\ authenticate (P := example_platform) default_options
       (example_world (example_now + 300))
       (callback_request example_token example_key)
     = validate (P := example_platform) default_options
         (example_world (example_now + 300)) example_token example_key.
Proof.
  pose proof (authenticate_login (P := example_platform) far_options
                (example_world example_now) email_form) as Hg.
  split; [exact Hg|].
  exact (issued_pair_reaches_verifier (P := example_platform) far_options
           default_options (example_world example_now)
           (example_world (example_now + 300)) (login_request email_form)
           _ example_key eq_refl eq_refl Hg eq_refl).
Defined.

Lemma two_emails_callback_ok :
  authenticate (P := example_platform) far_options (example_world example_now)
    (callback_request
       (issued_token (P := example_platform) far_options
          (example_world example_now) two_emails_form)
       example_key)
  = Verify {| form := Payload_ (issued_claims far_options
                                  (example_world example_now) two_emails_form);
              token := issued_token (P := example_platform) far_options
                         (example_world example_now) two_emails_form;
              key := None |}.
Proof.
  refine (callback_issued_ok (P := example_platform) far_options far_options
            (example_world example_now) (example_world example_now)
            two_emails_form _ _ _ _).
  - apply Object_fromEntries_absent. simpl. intros [H|[H|[]]]; discriminate.
  - vm_compute. reflexivity.
  - vm_compute. discriminate.
  - vm_compute. discriminate.
Qed.

(** X5 at the form with two entries named [email]: the verified form has
    the second. *)
Lemma last_form_value_reaches_verifier_witness :
  ~ In "email" (map fst (@nil (string * string)))
  /\ (exists g,
         authenticate (P := example_platform) far_options
           (example_world example_now) (login_request two_emails_form)
         = Verify g
         /\ form g = FormData_ two_emails_form)
  /\ exists p,
      Payload_ (issued_claims far_options (example_world example_now)
                  two_emails_form)
      = Payload_ p
      /\ p !! "email" = Some (JStr "c@d.com").
Proof.
  assert (H : ~ In "email" (map fst (@nil (string * string))))
    by (intros []).
  split; [exact H|].
  exact (last_form_value_reaches_verifier (P := example_platform) far_options
           far_options (example_world example_now) (example_world example_now)
           [("email", "a@b.com")] [] "email" "c@d.com" _
           ltac:(discriminate) ltac:(discriminate) H two_emails_callback_ok).
Defined.

(** X6 at a form with the field [nbf]. *)
Lemma form_field_nbf_blocks_verification_witness :
  In ("nbf", "tomorrow") [("email", "a@b.com"); ("nbf", "tomorrow")]
  /\ authenticate (P := example_platform) far_options
       (example_world example_now)
       (callback_request
          (issued_token (P := example_platform) far_options
             (example_world example_now)
             [("email", "a@b.com"); ("nbf", "tomorrow")])
          example_key)
     = Threw (JWTClaimValidationFailed "nbf" "invalid").
Proof.
  assert (H : In ("nbf", "tomorrow")
                [("email", "a@b.com"); ("nbf", "tomorrow")])
    by (right; left; reflexivity).
  split; [exact H|].
  exact (form_field_nbf_blocks_verification (P := example_platform) far_options
           far_options (example_world example_now) (example_world example_now)
           [("email", "a@b.com"); ("nbf", "tomorrow")] "tomorrow" H).
Defined.

(** X7 at the default configuration, 300 seconds after issuance: the four
    conditions decide, and the second fails. *)
Lemma issued_token_accepted_iff_witness :
  (exists o,
      authenticate (P := example_platform) default_options
        (example_world (example_now + 300))
        (callback_request default_token example_key)
      = Verify o)
  <-> ~ In "nbf" (map fst email_form)
      /\ Date_now (example_world (example_now + 300)) - 10
         < expiry default_options
      /\ Date_now (example_world (example_now + 300))
         - Date_now (example_world example_now) - 10
         <= expiry default_options
      /\ 0 - 10
         <= Date_now (example_world (example_now + 300))
            - Date_now (example_world example_now).
Proof.
  exact (issued_token_accepted_iff (P := example_platform) default_options
           default_options (example_world example_now)
           (example_world (example_now + 300)) email_form).
Defined.


(** X9 at [?token=abc]: another body and another random source, the same
    outcome. *)
Lemma verifier_reads_only_query_and_clock_witness :
  truthy (searchParams_get "token" [("token", "abc")]) = true
  /\ authenticate (P := example_platform) default_options
       (example_world example_now)
       {| searchParams := [("token", "abc")]; formData := None |}
     = authenticate (P := example_platform) default_options
         {| Date_now := example_now; entropy := fun _ => xff |}
         {| searchParams := [("token", "abc")]; formData := Some email_form |}.
Proof.
  split; [reflexivity|].
  exact (verifier_reads_only_query_and_clock (P := example_platform)
           default_options (example_world example_now)
           {| Date_now := example_now; entropy := fun _ => xff |}
           [("token", "abc")] None (Some email_form)
           (or_introl eq_refl) eq_refl).
Defined.
